(** * tasks.py: the Invoke task layer of nautobot_plugin_nornir

    A shallow embedding of [src/tasks.py]: the truthy parser [is_truthy],
    the compose-command composer [docker_compose], the dispatch helper
    [run_command] and the lint/test tasks that the aggregate task [tests]
    chains together.

    Python strings are [string]; a [dict] with string keys (the [**kwargs]
    of a call, the [env] of a child process) is a [gmap string _]; an
    exception is a value of [Exn] threaded through an error/state monad
    whose state is the chronological log of external effects. *)

From Stdlib Require Import String Ascii List ZArith Bool.
From stdpp Require Import base strings gmap list.

Import ListNotations.
Local Open Scope string_scope.

(** ** Python values and exceptions *)

(** The values that reach [is_truthy] or travel in a [**kwargs] dict. *)
Inductive PyVal : Type :=
| PNone
| PBool (b : bool)
| PInt (z : Z)
| PStr (s : string)
| PDict (d : gmap string string).

(** What [context.run] hands back: an [invoke.Result]. *)
Record Result : Type := mkResult {
  stdout : string;
  stderr : string;
  exited : Z
}.

(** Exceptions.  [ValueError fmt arg] stands for
    [ValueError(fmt % (arg,))]; [TypeError] and [AttributeError] carry
    the name at fault; [UnexpectedExit] is what Invoke raises when the
    child process fails. *)
Inductive Exn : Type :=
| ValueError (fmt arg : string)
| AttributeError (attr : string)
| TypeError (kw : string)
| UnexpectedExit (r : Result)
| OtherError (msg : string).

(** ** String primitives of the runtime *)

(** [str.lower] on one character: ['A'..'Z'] go to ['a'..'z'].  Bytes
    above 127 are kept: no character outside ASCII lowers to a letter
    that occurs in a truth token, so the tokens recognised are the same. *)
Definition lower_ascii (c : ascii) : ascii :=
  let n := nat_of_ascii c in
  if (65 <=? n)%nat && (n <=? 90)%nat then ascii_of_nat (n + 32) else c.

Fixpoint lower (s : string) : string :=
  match s with
  | EmptyString => EmptyString
  | String c s' => String (lower_ascii c) (lower s')
  end.

(** [x in (t1, ..., tn)] for strings. *)
Fixpoint str_in_tuple (x : string) (ts : list string) : bool :=
  match ts with
  | [] => false
  | t :: ts' => if String.eqb x t then true else str_in_tuple x ts'
  end.

(** [needle in hay] for strings: some suffix of [hay] starts with
    [needle]. *)
Fixpoint str_contains (needle hay : string) : bool :=
  if String.prefix needle hay then true
  else match hay with
       | EmptyString => false
       | String _ hay' => str_contains needle hay'
       end.

(** [s.startswith(p)] and [s.endswith("/")]. *)
Definition startswith (p s : string) : bool := String.prefix p s.

Fixpoint endswith_sep (s : string) : bool :=
  match s with
  | EmptyString => false
  | String c EmptyString => Ascii.eqb c "/"
  | String _ s' => endswith_sep s'
  end.

(** [os.path.join(a, b)] of posixpath, two arguments. *)
Definition os_path_join (a b : string) : string :=
  if startswith "/" b then b
  else if orb (String.eqb a EmptyString) (endswith_sep a) then a ++ b
  else a ++ "/" ++ b.

(** ** is_truthy *)

Definition true_tokens : list string := ["y"; "yes"; "t"; "true"; "on"; "1"].
Definition false_tokens : list string := ["n"; "no"; "f"; "false"; "off"; "0"].

(** [distutils.util.strtobool]: lower-cases, then looks the value up in
    the two tuples; returns the integers 1 and 0. *)
Definition strtobool (val : string) : Exn + Z :=
  let val := lower val in
  if str_in_tuple val true_tokens then inr 1%Z
  else if str_in_tuple val false_tokens then inr 0%Z
  else inl (ValueError "invalid truth value %r" val).

(** [bool(n)] on an integer. *)
Definition py_bool (n : Z) : bool := negb (n =? 0)%Z.

(** [is_truthy(arg)].  A value that is neither a [bool] nor a [str] has
    no [lower] attribute, which is what [strtobool] first asks for. *)
Definition is_truthy (arg : PyVal) : Exn + bool :=
  match arg with
  | PBool b => inr b
  | PStr s =>
      match strtobool s with
      | inl e => inl e
      | inr n => inr (py_bool n)
      end
  | _ => inl (AttributeError "lower")
  end.

(** ** Configuration and context *)

(** The [nautobot_plugin_nornir] block of the Invoke configuration.
    [local] is a [bool] by default and a string when it is overridden
    from the environment. *)
Record Config : Type := mkConfig {
  nautobot_ver : string;
  project_name : string;
  python_ver : string;
  local : PyVal;
  compose_dir : string;
  compose_files : list string
}.

Record Context : Type := mkContext {
  nautobot_plugin_nornir : Config
}.

(** ** External effects *)

(** What the process does to the outside: a line printed, or a command
    handed to [context.run] together with its keyword arguments. *)
Inductive Event : Type :=
| EPrint (line : string)
| ERun (command : string) (kwargs : gmap string PyVal).

Abbreviation Trace := (list Event).

(** The double quote character, as a one-character string. *)
Definition dq : string := String (ascii_of_nat 34) EmptyString.

(** The outside world, as a function of everything the process has done
    so far: which paths are regular files, and how a command run through
    [context.run] ends. *)
Record World : Type := mkWorld {
  os_path_isfile : Trace -> string -> bool;
  shell : Trace -> string -> gmap string PyVal -> Exn + Result
}.

(** Computations: the log so far goes in, a value or an exception and the
    extended log come out. *)
Definition M (A : Type) : Type := Trace -> (Exn + A) * Trace.

Definition ret {A} (a : A) : M A := fun tr => (inr a, tr).

Definition raise {A} (e : Exn) : M A := fun tr => (inl e, tr).

Definition bind {A B} (c : M A) (k : A -> M B) : M B :=
  fun tr =>
    match c tr with
    | (inl e, tr') => (inl e, tr')
    | (inr a, tr') => k a tr'
    end.

Notation "'let*' x ':=' c 'in' k" := (bind c (fun x => k))
  (at level 10, x pattern, c at level 100, k at level 200).

Notation "c '>>' k" := (bind c (fun _ => k))
  (at level 90, right associativity).

Definition print (line : string) : M unit :=
  fun tr => (inr tt, (tr ++ [EPrint line])%list).

Section Helpers.

Variable world : World.

Definition isfile (path : string) : M bool :=
  fun tr => (inr (os_path_isfile world tr path), tr).

(** [context.run(command, **kwargs)]. *)
Definition context_run (command : string) (kwargs : gmap string PyVal)
  : M Result :=
  fun tr => (shell world tr command kwargs, (tr ++ [ERun command kwargs])%list).

(** *** docker_compose *)

Definition build_env (cfg : Config) : gmap string string :=
  <["PYTHON_VER" := python_ver cfg]>
    (<["NAUTOBOT_VER" := nautobot_ver cfg]> ∅).

(** One [-f] clause. *)
Definition f_clause (compose_file_path : string) : string :=
  " -f " ++ dq ++ compose_file_path ++ dq.

(** The loop over [compose_files], with [compose_command] as its
    accumulator. *)
Fixpoint add_compose_files (dir : string) (files : list string)
    (compose_command : string) : M string :=
  match files with
  | [] => ret compose_command
  | compose_file :: rest =>
      let compose_file_path := os_path_join dir compose_file in
      let* found := isfile compose_file_path in
      add_compose_files dir rest
        (if found
         then compose_command ++ f_clause compose_file_path
         else compose_command)
  end.

(** [docker_compose(context, command, **kwargs)].  Passing [env=] next
    to a [**kwargs] that has an [env] key is a [TypeError] of the call
    itself. *)
Definition docker_compose (context : Context) (command : string)
    (kwargs : gmap string PyVal) : M Result :=
  let cfg := nautobot_plugin_nornir context in
  let build_env := build_env cfg in
  let compose_command :=
    "docker-compose --project-name " ++ project_name cfg
      ++ " --project-directory " ++ dq ++ compose_dir cfg ++ dq in
  let* compose_command :=
    add_compose_files (compose_dir cfg) (compose_files cfg) compose_command in
  let compose_command := compose_command ++ " " ++ command in
  print ("Running docker-compose command " ++ dq ++ command ++ dq) >>
  match kwargs !! "env" with
  | Some _ => raise (TypeError "env")
  | None => context_run compose_command (<["env" := PDict build_env]> kwargs)
  end.

(** *** run_command *)

(** [run_command(context, command, **kwargs)].  Neither branch has a
    [return]: the value is Python's [None], here [None : option Result]. *)
Definition run_command (context : Context) (command : string)
    (kwargs : gmap string PyVal) : M (option Result) :=
  match is_truthy (local (nautobot_plugin_nornir context)) with
  | inl e => raise e
  | inr true =>
      context_run command kwargs >>
      ret None
  | inr false =>
      let docker_compose_status := "ps --services --filter status=running" in
      let* results :=
        docker_compose context docker_compose_status {["hide" := PStr "out"]} in
      let compose_command :=
        if str_contains "nautobot" (stdout results)
        then "exec nautobot " ++ command
        else "run --entrypoint '" ++ command ++ "' nautobot" in
      docker_compose context compose_command {["pty" := PBool true]} >>
      ret None
  end.

End Helpers.

(** ** Tests and linting tasks *)

(** The first definition of [flake8] (lines 260-264); the name is bound
    again further down. *)
Module Shadowed.

Definition flake8 (world : World) (context : Context) : M unit :=
  let command := "flake8 ." in
  run_command world context command ∅ >> ret tt.

End Shadowed.

Section Tasks.

Variable world : World.

Definition unittest (context : Context) (keepdb : bool) (label : string)
    (failfast buffer : bool) : M unit :=
  let command := "coverage run --module nautobot.core.cli test " ++ label in
  let command := if keepdb then command ++ " --keepdb" else command in
  let command := if failfast then command ++ " --failfast" else command in
  let command := if buffer then command ++ " --buffer" else command in
  run_command world context command ∅ >> ret tt.

Definition pylint (context : Context) : M unit :=
  let command :=
    "pylint --init-hook " ++ dq ++ "import nautobot; nautobot.setup()" ++ dq
      ++ " --rcfile pyproject.toml nautobot_plugin_nornir" in
  run_command world context command ∅ >> ret tt.

Definition black (context : Context) (autoformat : bool) : M unit :=
  let black_command := if autoformat then "black" else "black --check --diff" in
  let command := black_command ++ " ." in
  run_command world context command ∅ >> ret tt.

Definition pydocstyle (context : Context) : M unit :=
  let command := "pydocstyle --config=.pydocstyle.ini ." in
  run_command world context command ∅ >> ret tt.

Definition bandit (context : Context) : M unit :=
  let command := "bandit --recursive . --configfile .bandit.yml" in
  run_command world context command ∅ >> ret tt.

Definition yamllint (context : Context) : M unit :=
  let command := "yamllint . --format standard" in
  run_command world context command ∅ >> ret tt.

(** The second definition of [flake8] (lines 278-282): the one the module
    exports and the one [tests] calls. *)
Definition flake8 (context : Context) : M unit :=
  let command := "flake8 ." in
  run_command world context command ∅ >> ret tt.

(** [tests(context)], with the defaults of [black] and [unittest] filled
    in as Python does at the call. *)
Definition tests (context : Context) : M unit :=
  print "Running black..." >>
  black context false >>
  print "Running bandit..." >>
  bandit context >>
  print "Running pydocstyle..." >>
  pydocstyle context >>
  print "Running yamllint..." >>
  yamllint context >>
  print "Running flake8..." >>
  flake8 context >>
  print "Running pylint..." >>
  pylint context >>
  print "Running unit tests..." >>
  unittest context false "nautobot_plugin_nornir" false true >>
  print "All tests have passed!".

End Tasks.

(** ** Vocabulary of the statements *)

(** The runtime's matching rule: the argument is lower-cased, the result
    compared with the token. *)
Definition matches_token (s token : string) : Prop := lower s = token.

(** The strings of [parts], one after the other. *)
Definition concat_all (parts : list string) : string :=
  fold_right String.append EmptyString parts.

(** The compose files that are on disk when the log is [tr], resolved
    against the project directory, in configuration order. *)
Definition existing_paths (world : World) (tr : Trace) (cfg : Config)
  : list string :=
  List.filter (os_path_isfile world tr)
    (map (os_path_join (compose_dir cfg)) (compose_files cfg)).

(** A command line with one [-f] clause per path of [paths], in order. *)
Definition compose_line (cfg : Config) (paths : list string)
    (command : string) : string :=
  "docker-compose --project-name " ++ project_name cfg
    ++ " --project-directory " ++ dq ++ compose_dir cfg ++ dq
    ++ concat_all (map f_clause paths) ++ " " ++ command.

(** The status line of [docker_compose]. *)
Definition announce (command : string) : Event :=
  EPrint ("Running docker-compose command " ++ dq ++ command ++ dq).

(** The running-services query of [run_command], and its two forms of
    the final command. *)
Definition status_query : string := "ps --services --filter status=running".

Definition exec_form (command : string) : string :=
  "exec nautobot " ++ command.

Definition fresh_form (command : string) : string :=
  "run --entrypoint '" ++ command ++ "' nautobot".

(** The fresh-container form with the command between double quotes. *)
Definition fresh_form_dq (command : string) : string :=
  "run --entrypoint " ++ dq ++ command ++ dq ++ " nautobot".

(** The target service name occurs somewhere in the captured output. *)
Definition service_appears (out : string) : Prop :=
  exists before after, out = before ++ "nautobot" ++ after.



(** A list of announced sub-tasks, run in order: each line is printed,
    then the task is run; an exception ends the run. *)
Fixpoint run_steps (steps : list (string * M unit)) : M unit :=
  match steps with
  | [] => ret tt
  | (line, task) :: rest => print line >> task >> run_steps rest
  end.

(** The sub-tasks of [tests], in the order of the source. *)
Definition test_steps (world : World) (context : Context)
  : list (string * M unit) :=
  [("Running black...", black world context false);
   ("Running bandit...", bandit world context);
   ("Running pydocstyle...", pydocstyle world context);
   ("Running yamllint...", yamllint world context);
   ("Running flake8...", flake8 world context);
   ("Running pylint...", pylint world context);
   ("Running unit tests...",
    unittest world context false "nautobot_plugin_nornir" false true)].

(** ** A scripted world to run the tasks in *)

Module Demo.

Definition cfg (loc : PyVal) : Config :=
  mkConfig "v1.0.0a1" "nautobot_plugin_nornir" "3.6" loc "/src/development"
    ["docker-compose.yml"; "../docker-compose.override.yml"].

Definition ctx (loc : PyVal) : Context := mkContext (cfg loc).

Definition ok (out : string) : Exn + Result := inr (mkResult out EmptyString 0).

Definition failed (code : Z) : Exn + Result :=
  inl (UnexpectedExit (mkResult EmptyString EmptyString code)).

(** Only the override file exists; the running-services query prints
    [services]; a command that mentions [bad] exits with status 1; every
    other command succeeds and prints nothing. *)
Definition world (services bad : string) : World :=
  mkWorld
    (fun _ path =>
       String.eqb path "/src/development/../docker-compose.override.yml")
    (fun _ command _ =>
       if str_contains "ps --services" command then ok services
       else if str_contains bad command then failed 1
       else ok EmptyString).

(** The commands handed to [context.run], oldest first. *)
Definition commands (tr : Trace) : list string :=
  flat_map (fun ev => match ev with ERun c _ => [c] | EPrint _ => [] end) tr.

End Demo.

(** Pieces of the runs in the scripted world. *)
Module DemoRuns.

Definition hide_out : gmap string PyVal := {["hide" := PStr "out"]}.

(** The log after the running-services query, from an empty log. *)
Definition after_query (services : string) (loc : PyVal) : Trace :=
  snd (docker_compose (Demo.world services "none") (Demo.ctx loc)
         status_query hide_out []).

Definition answer (services : string) : Result :=
  mkResult services EmptyString 0.

Definition prefix_line : string :=
  "docker-compose --project-name nautobot_plugin_nornir --project-directory "
    ++ dq ++ "/src/development" ++ dq ++ " -f " ++ dq
    ++ "/src/development/../docker-compose.override.yml" ++ dq ++ " ".

End DemoRuns.

(** ** Build, lifecycle and action tasks *)

(** [if s:] on a string: true unless the string is empty. *)
Definition str_truthy (s : string) : bool :=
  match s with
  | EmptyString => false
  | String _ _ => true
  end.

Section OtherTasks.

Variable world : World.

(** [build(context, force_rm=False, cache=True)]. *)
Definition build (context : Context) (force_rm cache : bool) : M unit :=
  let command := "build" in
  let command := if negb cache then command ++ " --no-cache" else command in
  let command := if force_rm then command ++ " --force-rm" else command in
  print ("Building Nautobot with Python "
           ++ python_ver (nautobot_plugin_nornir context) ++ "...") >>
  docker_compose world context command ∅ >> ret tt.

Definition debug (context : Context) : M unit :=
  print "Starting Nautobot in debug mode..." >>
  docker_compose world context "up" ∅ >> ret tt.

Definition start (context : Context) : M unit :=
  print "Starting Nautobot in detached mode..." >>
  docker_compose world context "up --detach" ∅ >> ret tt.

Definition stop (context : Context) : M unit :=
  print "Stopping Nautobot..." >>
  docker_compose world context "down" ∅ >> ret tt.

Definition destroy (context : Context) : M unit :=
  print "Destroying Nautobot..." >>
  docker_compose world context "down --volumes" ∅ >> ret tt.

Definition nbshell (context : Context) : M unit :=
  let command := "nautobot-server nbshell" in
  run_command world context command ∅ >> ret tt.

Definition cli (context : Context) : M unit :=
  run_command world context "bash" ∅ >> ret tt.

(** [create_user(context, user="admin")]. *)
Definition create_user (context : Context) (user : string) : M unit :=
  let command := "nautobot-server createsuperuser --username " ++ user in
  run_command world context command ∅ >> ret tt.

(** [makemigrations(context, name="")]. *)
Definition makemigrations (context : Context) (name : string) : M unit :=
  let command := "nautobot-server makemigrations nautobot_plugin_nornir" in
  let command :=
    if str_truthy name then command ++ " --name " ++ name else command in
  run_command world context command ∅ >> ret tt.

End OtherTasks.

(** ** Vocabulary of the further statements *)

(** The context with another value of the [local] flag. *)
Definition with_local (loc : PyVal) (context : Context) : Context :=
  let cfg := nautobot_plugin_nornir context in
  mkContext
    (mkConfig (nautobot_ver cfg) (project_name cfg) (python_ver cfg) loc
       (compose_dir cfg) (compose_files cfg)).

(** A call of one of the tasks that go through [run_command], with its
    arguments. *)
Inductive DispatchCall : Type :=
| CallNbshell
| CallCli
| CallCreateUser (user : string)
| CallMakemigrations (name : string)
| CallUnittest (keepdb : bool) (label : string) (failfast buffer : bool)
| CallPylint
| CallBlack (autoformat : bool)
| CallPydocstyle
| CallBandit
| CallFlake8
| CallYamllint.

Definition invoke_call (world : World) (context : Context)
    (call : DispatchCall) : M unit :=
  match call with
  | CallNbshell => nbshell world context
  | CallCli => cli world context
  | CallCreateUser user => create_user world context user
  | CallMakemigrations name => makemigrations world context name
  | CallUnittest keepdb label failfast buffer =>
      unittest world context keepdb label failfast buffer
  | CallPylint => pylint world context
  | CallBlack autoformat => black world context autoformat
  | CallPydocstyle => pydocstyle world context
  | CallBandit => bandit world context
  | CallFlake8 => flake8 world context
  | CallYamllint => yamllint world context
  end.

(** The events of a log that are runs, and the command of an event. *)
Definition is_run (ev : Event) : bool :=
  match ev with
  | ERun _ _ => true
  | EPrint _ => false
  end.

Definition runs_docker_compose (ev : Event) : Prop :=
  match ev with
  | ERun command _ => String.prefix "docker-compose " command = true
  | EPrint _ => True
  end.

(** The options of the running-services query as they reach
    [context.run]. *)
Definition query_kwargs (cfg : Config) : gmap string PyVal :=
  <["env" := PDict (build_env cfg)]> {["hide" := PStr "out"]}.

(** The host commands of [tests], in order. *)
Definition test_commands : list string :=
  ["black --check --diff .";
   "bandit --recursive . --configfile .bandit.yml";
   "pydocstyle --config=.pydocstyle.ini .";
   "yamllint . --format standard";
   "flake8 .";
   "pylint --init-hook " ++ dq ++ "import nautobot; nautobot.setup()" ++ dq
     ++ " --rcfile pyproject.toml nautobot_plugin_nornir";
   "coverage run --module nautobot.core.cli test nautobot_plugin_nornir --buffer"].

Definition all_passed : Event := EPrint "All tests have passed!".

(** A call of one of the tasks that drive [docker-compose] directly, with
    its arguments. *)
Inductive LifecycleCall : Type :=
| CallBuild (force_rm cache : bool)
| CallDebug
| CallStart
| CallStop
| CallDestroy.

Definition invoke_lifecycle (world : World) (context : Context)
    (call : LifecycleCall) : M unit :=
  match call with
  | CallBuild force_rm cache => build world context force_rm cache
  | CallDebug => debug world context
  | CallStart => start world context
  | CallStop => stop world context
  | CallDestroy => destroy world context
  end.

(** An announced sub-task that hands [snd step] to [run_command] with no
    options. *)
Definition host_step (world : World) (context : Context)
    (step : string * string) : string * M unit :=
  (fst step, run_command world context (snd step) ∅ >> ret tt).

(** The options of a lifecycle command as they reach [context.run]: the
    build environment and nothing else. *)
Definition env_only (cfg : Config) : gmap string PyVal :=
  <["env" := PDict (build_env cfg)]> ∅.

(** The announcements of [tests], each with the host command of its
    sub-task. *)
Definition test_script : list (string * string) :=
  [("Running black...", "black --check --diff .");
   ("Running bandit...", "bandit --recursive . --configfile .bandit.yml");
   ("Running pydocstyle...", "pydocstyle --config=.pydocstyle.ini .");
   ("Running yamllint...", "yamllint . --format standard");
   ("Running flake8...", "flake8 .");
   ("Running pylint...",
    "pylint --init-hook " ++ dq ++ "import nautobot; nautobot.setup()" ++ dq
      ++ " --rcfile pyproject.toml nautobot_plugin_nornir");
   ("Running unit tests...",
    "coverage run --module nautobot.core.cli test nautobot_plugin_nornir --buffer")].

(** Announce, run on the host with no options, go on: the first command
    that fails ends the sequence with its exception. *)
Fixpoint host_sequence (world : World) (script : list (string * string))
  : M unit :=
  match script with
  | [] => ret tt
  | (line, command) :: rest =>
      print line >> context_run world command ∅ >> host_sequence world rest
  end.

(** ** The file system behind [os.path] *)

(** What a path names, when it names something. *)
Inductive FileKind : Type :=
| RegularFile
| Directory.

Abbreviation FileSystem := (string -> option FileKind).

(** [os.path.isfile]: the path names a regular file. *)
Definition fs_isfile (fs : FileSystem) (path : string) : bool :=
  match fs path with
  | Some RegularFile => true
  | _ => false
  end.

(** [os.path.exists]: the path names something. *)
Definition fs_exists (fs : FileSystem) (path : string) : bool :=
  match fs path with
  | Some _ => true
  | None => false
  end.

(** The world over a file system that does not change. *)
Definition world_on (fs : FileSystem)
    (sh : Trace -> string -> gmap string PyVal -> Exn + Result) : World :=
  mkWorld (fun _ path => fs_isfile fs path) sh.

(** The paths of the configured compose files that exist, of whatever
    kind. *)
Definition paths_that_exist (fs : FileSystem) (cfg : Config) : list string :=
  List.filter (fs_exists fs)
    (map (os_path_join (compose_dir cfg)) (compose_files cfg)).

(** A checkout in which [docker-compose.yml] is a directory and the
    override is a file. *)
Definition demo_fs : FileSystem :=
  fun path =>
    if String.eqb path "/src/development/docker-compose.yml"
    then Some Directory
    else if String.eqb path "/src/development/../docker-compose.override.yml"
    then Some RegularFile
    else None.

(** * Properties *)

(** ** Strings *)

Lemma append_cons (c : ascii) (s t : string) :
  String c s ++ t = String c (s ++ t).
Proof. reflexivity. Qed.

Lemma append_nil_l (s : string) : EmptyString ++ s = s.
Proof. reflexivity. Qed.

Lemma append_nil_r (s : string) : s ++ EmptyString = s.
Proof.
  induction s as [|c s IH]; [reflexivity |].
  now rewrite append_cons, IH.
Qed.

Lemma append_assoc (a b c : string) : (a ++ b) ++ c = a ++ (b ++ c).
Proof.
  induction a as [|x a IH]; [reflexivity |].
  now rewrite !append_cons, IH.
Qed.

Lemma prefix_iff (p s : string) :
  String.prefix p s = true <-> exists rest, s = p ++ rest.
Proof.
  revert s; induction p as [|a p IH]; intros s.
  - destruct s; simpl; split; eauto.
  - destruct s as [|b s]; simpl.
    + split; [discriminate |].
      intros [rest H]. rewrite append_cons in H. discriminate.
    + destruct (ascii_dec a b) as [->|Hne].
      * rewrite IH. split; intros [rest H]; exists rest.
        -- now rewrite append_cons, H.
        -- rewrite append_cons in H. now injection H.
      * split; [discriminate |].
        intros [rest H]. rewrite append_cons in H. injection H. congruence.
Qed.

Lemma str_contains_unfold (needle hay : string) :
  str_contains needle hay =
  if String.prefix needle hay then true
  else match hay with
       | EmptyString => false
       | String _ hay' => str_contains needle hay'
       end.
Proof. destruct hay; reflexivity. Qed.

(** Python's [needle in hay]: the needle occurs somewhere in [hay]. *)
Lemma str_contains_iff (needle hay : string) :
  str_contains needle hay = true <->
  exists before after, hay = before ++ needle ++ after.
Proof.
  induction hay as [|c hay IH]; rewrite str_contains_unfold.
  - destruct (String.prefix needle EmptyString) eqn:Hp.
    + apply prefix_iff in Hp as [rest Hp].
      split; [intros _; now exists EmptyString, rest | reflexivity].
    + split; [discriminate |].
      intros [[|x before] [after H]].
      * rewrite append_nil_l in H.
        assert (String.prefix needle EmptyString = true) as Hq
          by (apply prefix_iff; eauto).
        congruence.
      * rewrite append_cons in H. discriminate.
  - destruct (String.prefix needle (String c hay)) eqn:Hp.
    + apply prefix_iff in Hp as [rest Hp].
      split; [intros _; now exists EmptyString, rest | reflexivity].
    + rewrite IH. split.
      * intros (before & after & ->). now exists (String c before), after.
      * intros ([|x before] & after & H).
        -- rewrite append_nil_l in H.
           assert (String.prefix needle (String c hay) = true) as Hq
             by (apply prefix_iff; eauto).
           congruence.
        -- rewrite append_cons in H. injection H as _ H. eauto.
Qed.

Lemma str_in_tuple_iff (x : string) (ts : list string) :
  str_in_tuple x ts = true <-> In x ts.
Proof.
  induction ts as [|t ts IH]; simpl.
  - split; [discriminate | tauto].
  - destruct (String.eqb_spec x t) as [->|Hne].
    + split; auto.
    + rewrite IH. split; [auto | intros [H|H]; congruence].
Qed.

(** ** is_truthy *)

Example is_truthy_yes : is_truthy (PStr "yes") = inr true.
Proof. reflexivity. Qed.

Example is_truthy_OFF : is_truthy (PStr "OFF") = inr false.
Proof. reflexivity. Qed.

Example is_truthy_maybe :
  is_truthy (PStr "Maybe") = inl (ValueError "invalid truth value %r" "maybe").
Proof. reflexivity. Qed.

(** C3.  A string that matches one of y, yes, t, true, on, 1 after
    lower-casing parses to [True]; one that matches n, no, f, false, off,
    0 parses to [False]; a string that matches no token of either set is
    rejected with the [ValueError] of [strtobool], and no boolean is
    returned. *)
Theorem is_truthy_string (s : string) :
  ((exists t, In t true_tokens /\ matches_token s t) ->
     is_truthy (PStr s) = inr true) /\
  ((exists t, In t false_tokens /\ matches_token s t) ->
     is_truthy (PStr s) = inr false) /\
  ((forall t, In t (true_tokens ++ false_tokens)%list -> ~ matches_token s t) ->
     is_truthy (PStr s) = inl (ValueError "invalid truth value %r" (lower s))).
Proof.
  unfold matches_token, is_truthy, strtobool.
  split; [|split].
  - intros (t & Hin & <-).
    apply str_in_tuple_iff in Hin. now rewrite Hin.
  - intros (t & Hin & <-).
    destruct (str_in_tuple (lower s) true_tokens) eqn:Ht.
    + exfalso. simpl in Hin, Ht.
      repeat (destruct Hin as [Hin|Hin];
              [rewrite <- Hin in Ht; discriminate Ht|]).
      exact Hin.
    + apply str_in_tuple_iff in Hin. now rewrite Hin.
  - intros Hnone.
    destruct (str_in_tuple (lower s) true_tokens) eqn:Ht.
    + apply str_in_tuple_iff in Ht.
      exfalso. apply (Hnone (lower s)); [apply in_or_app; auto | reflexivity].
    + destruct (str_in_tuple (lower s) false_tokens) eqn:Hf; [|reflexivity].
      apply str_in_tuple_iff in Hf.
      exfalso. apply (Hnone (lower s)); [apply in_or_app; auto | reflexivity].
Qed.

Lemma is_truthy_string_witness :
  is_truthy (PStr "Yes") = inr true /\
  is_truthy (PStr "oFF") = inr false /\
  is_truthy (PStr "2") = inl (ValueError "invalid truth value %r" "2").
Proof.
  split; [|split].
  - apply (proj1 (is_truthy_string "Yes")).
    exists "yes". split; [simpl; auto | reflexivity].
  - apply (proj1 (proj2 (is_truthy_string "oFF"))).
    exists "off". split; [simpl; tauto | reflexivity].
  - apply (proj2 (proj2 (is_truthy_string "2"))).
    intros t Hin. unfold matches_token. simpl in Hin.
    repeat (destruct Hin as [<-|Hin]; [discriminate|]).
    destruct Hin.
Defined.

(** C5.  On a boolean [is_truthy] is the identity; it is a function of
    its argument alone and touches no log. *)
Theorem is_truthy_bool (b : bool) : is_truthy (PBool b) = inr b.
Proof. reflexivity. Qed.

(** ** docker_compose *)

Section ComposerFacts.

Variable world : World.

Lemma add_compose_files_eq (dir : string) (files : list string)
    (acc : string) (tr : Trace) :
  add_compose_files world dir files acc tr =
  (inr (acc ++ concat_all
          (map f_clause
             (List.filter (os_path_isfile world tr)
                (map (os_path_join dir) files)))), tr).
Proof.
  revert acc; induction files as [|file rest IH]; intros acc.
  - simpl. unfold ret. now rewrite append_nil_r.
  - cbn [add_compose_files map List.filter].
    unfold bind, isfile at 1.
    destruct (os_path_isfile world tr (os_path_join dir file)).
    + rewrite IH. cbn [map concat_all fold_right].
      now rewrite append_assoc.
    + apply IH.
Qed.

Lemma docker_compose_eq (context : Context) (command : string)
    (kwargs : gmap string PyVal) (tr : Trace) :
  let cfg := nautobot_plugin_nornir context in
  docker_compose world context command kwargs tr =
  match kwargs !! "env" with
  | Some _ => (inl (TypeError "env"), (tr ++ [announce command])%list)
  | None =>
      context_run world
        (compose_line cfg (existing_paths world tr cfg) command)
        (<["env" := PDict (build_env cfg)]> kwargs)
        (tr ++ [announce command])%list
  end.
Proof.
  intros cfg. unfold docker_compose, bind at 1.
  rewrite add_compose_files_eq. fold cfg.
  unfold compose_line, existing_paths, bind, print, announce.
  rewrite !append_assoc.
  destruct (kwargs !! "env"); reflexivity.
Qed.

Lemma build_env_nautobot_ver (cfg : Config) :
  build_env cfg !! "NAUTOBOT_VER" = Some (nautobot_ver cfg).
Proof.
  unfold build_env.
  rewrite lookup_insert_ne by discriminate.
  apply lookup_insert_eq.
Qed.

Lemma build_env_python_ver (cfg : Config) :
  build_env cfg !! "PYTHON_VER" = Some (python_ver cfg).
Proof. unfold build_env. apply lookup_insert_eq. Qed.

End ComposerFacts.

Section ComposerClaims.

Variable world : World.

(** C2, as the code has it.  The command line that [docker_compose]
    hands to [context.run] has one [-f] clause for exactly the configured
    compose files whose path, joined to the project directory, is a
    regular file on disk at the time of the call ([os.path.isfile]), in
    configuration order; a name whose path is missing, or is not a
    regular file, adds no clause and raises nothing.  With the list
    [A; B] and only [B] a regular file there is one clause, that of
    [B]. *)
Theorem docker_compose_file_clauses (context : Context) (command : string)
    (kwargs : gmap string PyVal) (tr : Trace) :
  let cfg := nautobot_plugin_nornir context in
  let dir := compose_dir cfg in
  let tr' := (tr ++ [announce command])%list in
  exists line,
    docker_compose world context command kwargs tr =
      match kwargs !! "env" with
      | Some _ => (inl (TypeError "env"), tr')
      | None =>
          context_run world line (<["env" := PDict (build_env cfg)]> kwargs) tr'
      end /\
    line = compose_line cfg (existing_paths world tr cfg) command /\
    (forall A B : string,
        compose_files cfg = [A; B] ->
        os_path_isfile world tr (os_path_join dir A) = false ->
        os_path_isfile world tr (os_path_join dir B) = true ->
        line = "docker-compose --project-name " ++ project_name cfg
                 ++ " --project-directory " ++ dq ++ dir ++ dq
                 ++ f_clause (os_path_join dir B) ++ " " ++ command).
Proof.
  intros cfg dir tr'.
  exists (compose_line cfg (existing_paths world tr cfg) command).
  split; [apply docker_compose_eq | split; [reflexivity |]].
  intros A B Hfiles HA HB.
  unfold compose_line, existing_paths. rewrite Hfiles.
  cbn [map List.filter]. fold dir. rewrite HA, HB.
  cbn [map concat_all fold_right].
  now rewrite append_nil_r.
Qed.

(** C6.  Every call that [docker_compose] makes to [context.run] carries
    as [env] the mapping built from the configuration, in which
    [NAUTOBOT_VER] and [PYTHON_VER] are bound to the configured versions;
    and unless the caller's options clash on [env], such a call is made. *)
Theorem docker_compose_env (context : Context) (command : string)
    (kwargs : gmap string PyVal) (tr : Trace) :
  let cfg := nautobot_plugin_nornir context in
  exists added,
    snd (docker_compose world context command kwargs tr) = (tr ++ added)%list /\
    (forall cmd kw, In (ERun cmd kw) added ->
       exists env : gmap string string,
         kw !! "env" = Some (PDict env) /\
         env !! "NAUTOBOT_VER" = Some (nautobot_ver cfg) /\
         env !! "PYTHON_VER" = Some (python_ver cfg)) /\
    (kwargs !! "env" = None -> exists cmd kw, In (ERun cmd kw) added).
Proof.
  intros cfg. rewrite docker_compose_eq. fold cfg.
  destruct (kwargs !! "env") as [v|] eqn:Henv.
  - exists [announce command]. split; [reflexivity | split].
    + intros cmd kw [H|[]]. discriminate H.
    + discriminate.
  - exists [announce command;
            ERun (compose_line cfg (existing_paths world tr cfg) command)
              (<["env" := PDict (build_env cfg)]> kwargs)].
    split; [|split].
    + unfold context_run. cbn [snd]. now rewrite <- app_assoc.
    + intros cmd kw [H|[H|[]]]; [discriminate H |].
      injection H as <- <-.
      exists (build_env cfg). split; [apply lookup_insert_eq |].
      split; [apply build_env_nautobot_ver | apply build_env_python_ver].
    + intros _. eexists _, _. right. left. reflexivity.
Qed.

End ComposerClaims.

Lemma docker_compose_file_clauses_witness :
  Demo.commands
    (snd (docker_compose (Demo.world EmptyString "none")
            (Demo.ctx (PBool false)) "up --detach" ∅ [])) =
  ["docker-compose --project-name nautobot_plugin_nornir --project-directory "
     ++ dq ++ "/src/development" ++ dq ++ " -f " ++ dq
     ++ "/src/development/../docker-compose.override.yml" ++ dq
     ++ " up --detach"].
Proof.
  destruct (docker_compose_file_clauses (Demo.world EmptyString "none")
              (Demo.ctx (PBool false)) "up --detach" ∅ [])
    as (line & Hrun & _ & Honly).
  rewrite Hrun.
  rewrite (Honly "docker-compose.yml" "../docker-compose.override.yml"
             eq_refl eq_refl eq_refl).
  reflexivity.
Defined.

(** C2 as stated fails on what counts as being on disk: a configured
    name whose path exists as a directory gets no [-f] clause, since the
    test of the code is [os.path.isfile]. *)
Lemma docker_compose_directory_cex :
  fs_exists demo_fs
    (os_path_join (compose_dir (Demo.cfg (PBool false))) "docker-compose.yml")
    = true /\
  paths_that_exist demo_fs (Demo.cfg (PBool false))
    = ["/src/development/docker-compose.yml";
       "/src/development/../docker-compose.override.yml"] /\
  Demo.commands
    (snd (docker_compose (world_on demo_fs (fun _ _ _ => Demo.ok EmptyString))
            (Demo.ctx (PBool false)) "up" ∅ []))
    = [compose_line (Demo.cfg (PBool false))
         ["/src/development/../docker-compose.override.yml"] "up"] /\
  Demo.commands
    (snd (docker_compose (world_on demo_fs (fun _ _ _ => Demo.ok EmptyString))
            (Demo.ctx (PBool false)) "up" ∅ []))
    <> [compose_line (Demo.cfg (PBool false))
          (paths_that_exist demo_fs (Demo.cfg (PBool false))) "up"].
Proof.
  split; [reflexivity | split; [reflexivity | split; [reflexivity |]]].
  intros H. vm_compute in H. discriminate H.
Qed.

Lemma docker_compose_env_witness :
  exists cmd kw,
    In (ERun cmd kw)
      (snd (docker_compose (Demo.world EmptyString "none")
              (Demo.ctx (PBool false)) "build" {["pty" := PBool true]} [])) /\
    exists env : gmap string string,
      kw !! "env" = Some (PDict env) /\
      env !! "NAUTOBOT_VER" = Some "v1.0.0a1" /\
      env !! "PYTHON_VER" = Some "3.6".
Proof.
  destruct (docker_compose_env (Demo.world EmptyString "none")
              (Demo.ctx (PBool false)) "build" {["pty" := PBool true]} [])
    as (added & Htr & Henv & Hcall).
  destruct (Hcall eq_refl) as (cmd & kw & Hin).
  exists cmd, kw. split.
  - rewrite Htr. exact Hin.
  - exact (Henv cmd kw Hin).
Defined.

(** ** run_command *)

Section DispatchFacts.

Variable world : World.

Lemma run_command_local (context : Context) (command : string)
    (kwargs : gmap string PyVal) (tr : Trace) :
  is_truthy (local (nautobot_plugin_nornir context)) = inr true ->
  run_command world context command kwargs tr =
  (match shell world tr command kwargs with
   | inl e => inl e
   | inr _ => inr None
   end, (tr ++ [ERun command kwargs])%list).
Proof.
  intros Hlocal. unfold run_command. rewrite Hlocal.
  unfold bind, context_run, ret.
  destruct (shell world tr command kwargs); reflexivity.
Qed.

Lemma run_command_container (context : Context) (command : string)
    (kwargs : gmap string PyVal) (tr : Trace) (results : Result)
    (tr1 : Trace) :
  is_truthy (local (nautobot_plugin_nornir context)) = inr false ->
  docker_compose world context status_query {["hide" := PStr "out"]} tr
    = (inr results, tr1) ->
  run_command world context command kwargs tr =
  (docker_compose world context
     (if str_contains "nautobot" (stdout results)
      then exec_form command else fresh_form command)
     {["pty" := PBool true]} >> ret None) tr1.
Proof.
  intros Hlocal Hquery. unfold run_command. rewrite Hlocal.
  unfold bind at 1. fold status_query. rewrite Hquery.
  reflexivity.
Qed.

Lemma fresh_is_not_exec (command : string) :
  fresh_form command <> exec_form command.
Proof. unfold fresh_form, exec_form. discriminate. Qed.

End DispatchFacts.

Section DispatchClaims.

Variable world : World.

(** C1, as the code has it.  With local mode false and the
    running-services query answered by [results]: if [nautobot] occurs in
    the captured output, the command given to the composer is
    [exec nautobot <command>]; if it does not occur, the command is
    [run --entrypoint '<command>' nautobot], the caller's command between
    single quotes, and that is never the exec form. *)
Theorem run_command_dispatch (context : Context) (command : string)
    (kwargs : gmap string PyVal) (tr : Trace) (results : Result)
    (tr1 : Trace) :
  is_truthy (local (nautobot_plugin_nornir context)) = inr false ->
  docker_compose world context status_query {["hide" := PStr "out"]} tr
    = (inr results, tr1) ->
  (service_appears (stdout results) ->
     run_command world context command kwargs tr =
     (docker_compose world context (exec_form command)
        {["pty" := PBool true]} >> ret None) tr1) /\
  (~ service_appears (stdout results) ->
     run_command world context command kwargs tr =
     (docker_compose world context (fresh_form command)
        {["pty" := PBool true]} >> ret None) tr1
     /\ fresh_form command <> exec_form command).
Proof.
  intros Hlocal Hquery.
  rewrite (run_command_container world context command kwargs tr results tr1
             Hlocal Hquery).
  unfold service_appears. rewrite <- str_contains_iff.
  destruct (str_contains "nautobot" (stdout results)).
  - split; [reflexivity | intros H; now elim H].
  - split; [discriminate |].
    intros _. split; [reflexivity | apply fresh_is_not_exec].
Qed.

(** C4, as the code has it.  With local mode true the only effect of
    [run_command] is one call of [context.run] with the caller's command
    and the caller's options: nothing is printed and the composer is not
    called, so no running-services query is issued.  A failure of that run
    is raised to the caller; its result is dropped and [None] is
    returned. *)
Theorem run_command_local_direct (context : Context) (command : string)
    (kwargs : gmap string PyVal) (tr : Trace) :
  is_truthy (local (nautobot_plugin_nornir context)) = inr true ->
  snd (run_command world context command kwargs tr)
    = (tr ++ [ERun command kwargs])%list /\
  fst (run_command world context command kwargs tr)
    = match fst (context_run world command kwargs tr) with
      | inl e => inl e
      | inr _ => inr None
      end.
Proof.
  intros Hlocal. rewrite (run_command_local world _ _ _ _ Hlocal).
  split; reflexivity.
Qed.


(** C9.  With local mode false the caller's options play no part: the
    run is the same as with no options at all, the composer is called for
    the final command with the single option [pty=True], and the call of
    [context.run] it ends in carries that option next to the [env] the
    composer adds. *)
Theorem run_command_drops_kwargs (context : Context) (command : string)
    (kwargs : gmap string PyVal) (tr : Trace) :
  let cfg := nautobot_plugin_nornir context in
  is_truthy (local cfg) = inr false ->
  run_command world context command kwargs tr
    = run_command world context command ∅ tr /\
  (forall results tr1,
      docker_compose world context status_query {["hide" := PStr "out"]} tr
        = (inr results, tr1) ->
      exists compose_command,
        run_command world context command kwargs tr =
        (docker_compose world context compose_command
           {["pty" := PBool true]} >> ret None) tr1 /\
        snd (run_command world context command kwargs tr) =
        (tr1 ++ [announce compose_command;
                 ERun (compose_line cfg (existing_paths world tr1 cfg)
                         compose_command)
                   (<["env" := PDict (build_env cfg)]>
                      {["pty" := PBool true]})])%list).
Proof.
  intros cfg Hlocal. split.
  - unfold run_command. fold cfg. rewrite Hlocal. reflexivity.
  - intros results tr1 Hquery.
    rewrite (run_command_container world context command kwargs tr results
               tr1 Hlocal Hquery).
    eexists. split; [reflexivity |].
    unfold bind. rewrite docker_compose_eq. fold cfg.
    rewrite lookup_singleton_ne by discriminate.
    unfold context_run, ret.
    destruct (shell world _ _ _); cbn [snd]; now rewrite <- app_assoc.
Qed.

End DispatchClaims.

Lemma run_command_dispatch_witness :
  Demo.commands
    (snd (run_command (Demo.world "db" "none") (Demo.ctx (PBool false))
            "bash" ∅ [])) =
  [DemoRuns.prefix_line ++ status_query;
   DemoRuns.prefix_line ++ "run --entrypoint 'bash' nautobot"].
Proof.
  destruct (run_command_dispatch (Demo.world "db" "none")
              (Demo.ctx (PBool false)) "bash" ∅ []
              (DemoRuns.answer "db")
              (DemoRuns.after_query "db" (PBool false))
              eq_refl eq_refl) as [_ Hfresh].
  destruct Hfresh as [Hrun _].
  - unfold service_appears. rewrite <- str_contains_iff. discriminate.
  - rewrite Hrun. reflexivity.
Defined.

(** C1 as stated fails on the quoting: with no [nautobot] among the
    running services, the command given to the composer is not the one
    with the caller's command between double quotes. *)
Lemma run_command_fresh_form_dq_cex :
  docker_compose (Demo.world "db" "none") (Demo.ctx (PBool false))
    status_query DemoRuns.hide_out []
    = (inr (DemoRuns.answer "db"), DemoRuns.after_query "db" (PBool false)) /\
  str_contains "nautobot" (stdout (DemoRuns.answer "db")) = false /\
  run_command (Demo.world "db" "none") (Demo.ctx (PBool false)) "bash" ∅ []
    <> (docker_compose (Demo.world "db" "none") (Demo.ctx (PBool false))
          (fresh_form_dq "bash") {["pty" := PBool true]} >> ret None)
         (DemoRuns.after_query "db" (PBool false)).
Proof.
  split; [reflexivity | split; [reflexivity |]].
  intros H.
  apply (f_equal (fun out => Demo.commands (snd out))) in H.
  vm_compute in H. discriminate H.
Qed.

Lemma run_command_local_direct_witness :
  snd (run_command (Demo.world "nautobot" "none") (Demo.ctx (PStr "yes"))
         "bash" {["pty" := PBool true]} [])
    = [ERun "bash" {["pty" := PBool true]}] /\
  fst (run_command (Demo.world "nautobot" "none") (Demo.ctx (PStr "yes"))
         "bash" {["pty" := PBool true]} [])
    = inr None.
Proof.
  destruct (run_command_local_direct (Demo.world "nautobot" "none")
              (Demo.ctx (PStr "yes")) "bash" {["pty" := PBool true]} []
              eq_refl) as [Hlog Hval].
  split; [exact Hlog | exact Hval].
Defined.

(** C4 as stated fails on the return value: in local mode the run
    yields a result and [run_command] returns [None], not that result. *)
Lemma run_command_local_result_cex :
  is_truthy (local (Demo.cfg (PBool true))) = inr true /\
  fst (context_run (Demo.world "nautobot" "none") "docker-compose ps --services"
         ∅ [])
    = inr (DemoRuns.answer "nautobot") /\
  fst (run_command (Demo.world "nautobot" "none") (Demo.ctx (PBool true))
         "docker-compose ps --services" ∅ [])
    <> inr (Some (DemoRuns.answer "nautobot")).
Proof.
  split; [reflexivity | split; [reflexivity |]].
  vm_compute. discriminate.
Qed.


Lemma run_command_drops_kwargs_witness :
  run_command (Demo.world "nautobot" "none") (Demo.ctx (PStr "off")) "bash"
    (<["warn" := PBool true]> {["hide" := PStr "both"]}) []
  = run_command (Demo.world "nautobot" "none") (Demo.ctx (PStr "off")) "bash"
      ∅ [].
Proof.
  exact (proj1 (run_command_drops_kwargs (Demo.world "nautobot" "none")
                  (Demo.ctx (PStr "off")) "bash"
                  (<["warn" := PBool true]> {["hide" := PStr "both"]}) []
                  eq_refl)).
Defined.

(** ** The aggregate task *)

Lemma bind_assoc {A B C} (c : M A) (k : A -> M B) (h : B -> M C) (tr : Trace) :
  bind (bind c k) h tr = bind c (fun a => bind (k a) h) tr.
Proof. unfold bind. destruct (c tr) as [[e|a] tr']; reflexivity. Qed.

Lemma bind_raises {A B} (c : M A) (k : A -> M B) (tr tr' : Trace) (e : Exn) :
  c tr = (inl e, tr') -> bind c k tr = (inl e, tr').
Proof. intros H. unfold bind. now rewrite H. Qed.

Lemma bind_returns {A B} (c : M A) (k : A -> M B) (tr tr' : Trace) (a : A) :
  c tr = (inr a, tr') -> bind c k tr = k a tr'.
Proof. intros H. unfold bind. now rewrite H. Qed.

Lemma run_steps_app (steps1 steps2 : list (string * M unit)) (tr : Trace) :
  run_steps (steps1 ++ steps2)%list tr
    = (run_steps steps1 >> run_steps steps2) tr.
Proof.
  revert tr; induction steps1 as [|[line task] rest IH]; intros tr.
  - reflexivity.
  - cbn [app run_steps]. cbv beta iota delta [bind print].
    destruct (task _) as [[e|[]] tr']; [reflexivity |].
    rewrite IH. reflexivity.
Qed.

(** A failing sub-task ends the sequence on the spot. *)
Lemma run_steps_halts (before after : list (string * M unit))
    (line : string) (task : M unit) (tr tr1 tr2 : Trace) (e : Exn) :
  run_steps before tr = (inr tt, tr1) ->
  task (tr1 ++ [EPrint line])%list = (inl e, tr2) ->
  run_steps (before ++ (line, task) :: after)%list tr = (inl e, tr2).
Proof.
  intros Hbefore Htask.
  rewrite run_steps_app.
  rewrite (bind_returns _ _ _ _ _ Hbefore).
  cbn [run_steps]. unfold bind at 1. unfold print.
  now apply bind_raises.
Qed.

Section AggregateClaims.

Variable world : World.

Lemma tests_eq (context : Context) (tr : Trace) :
  tests world context tr
    = (run_steps (test_steps world context)
         >> print "All tests have passed!") tr.
Proof.
  unfold tests, test_steps. cbn [run_steps].
  cbv beta iota delta [bind print ret].
  destruct (black world context false _) as [[?|[]] ?]; [reflexivity |].
  destruct (bandit world context _) as [[?|[]] ?]; [reflexivity |].
  destruct (pydocstyle world context _) as [[?|[]] ?]; [reflexivity |].
  destruct (yamllint world context _) as [[?|[]] ?]; [reflexivity |].
  destruct (flake8 world context _) as [[?|[]] ?]; [reflexivity |].
  destruct (pylint world context _) as [[?|[]] ?]; [reflexivity |].
  destruct (unittest world context _ _ _ _ _) as [[?|[]] ?]; reflexivity.
Qed.

End AggregateClaims.

Section TaskClaims.

Variable world : World.

(** C7.  [tests] runs black, bandit, pydocstyle, yamllint, flake8,
    pylint and the unit tests in that order, each after its announcement;
    when one of them raises, [tests] raises the same exception and its
    log ends where that sub-task stopped: no later sub-task is run. *)
Theorem tests_order_and_halt (context : Context) :
  (forall tr,
      tests world context tr
        = (run_steps (test_steps world context)
             >> print "All tests have passed!") tr) /\
  (forall before line task after tr tr1 tr2 e,
      test_steps world context = (before ++ (line, task) :: after)%list ->
      run_steps before tr = (inr tt, tr1) ->
      task (tr1 ++ [EPrint line])%list = (inl e, tr2) ->
      tests world context tr = (inl e, tr2)).
Proof.
  split; [apply tests_eq |].
  intros before line task after tr tr1 tr2 e Hsplit Hbefore Htask.
  rewrite tests_eq, Hsplit.
  apply bind_raises.
  now apply run_steps_halts with (tr1 := tr1).
Qed.

(** C10.  The two definitions of [flake8] are the same function: for
    every context both hand the command [flake8 .] to [run_command] with
    no options, so rebinding the name changes nothing that can be
    observed. *)
Theorem flake8_shadowing (context : Context) (tr : Trace) :
  flake8 world context tr = Shadowed.flake8 world context tr /\
  flake8 world context tr
    = (run_command world context "flake8 ." ∅ >> ret tt) tr /\
  Shadowed.flake8 world context tr
    = (run_command world context "flake8 ." ∅ >> ret tt) tr.
Proof. split; [|split]; reflexivity. Qed.

End TaskClaims.

Lemma tests_order_and_halt_witness :
  fst (tests (Demo.world "nautobot" "yamllint") (Demo.ctx (PBool false)) [])
    = inl (UnexpectedExit (mkResult EmptyString EmptyString 1)) /\
  Demo.commands
    (snd (tests (Demo.world "nautobot" "yamllint") (Demo.ctx (PBool false)) []))
    = [DemoRuns.prefix_line ++ status_query;
       DemoRuns.prefix_line ++ "exec nautobot black --check --diff .";
       DemoRuns.prefix_line ++ status_query;
       DemoRuns.prefix_line
         ++ "exec nautobot bandit --recursive . --configfile .bandit.yml";
       DemoRuns.prefix_line ++ status_query;
       DemoRuns.prefix_line
         ++ "exec nautobot pydocstyle --config=.pydocstyle.ini .";
       DemoRuns.prefix_line ++ status_query;
       DemoRuns.prefix_line ++ "exec nautobot yamllint . --format standard"].
Proof.
  pose (w := Demo.world "nautobot" "yamllint").
  pose (c := Demo.ctx (PBool false)).
  pose (before := [("Running black...", black w c false);
                   ("Running bandit...", bandit w c);
                   ("Running pydocstyle...", pydocstyle w c)]).
  pose (tr1 := snd (run_steps before [])).
  pose (tr2 := snd (yamllint w c (tr1 ++ [EPrint "Running yamllint..."])%list)).
  assert (tests w c [] = (inl (UnexpectedExit (mkResult EmptyString EmptyString 1)), tr2)) as H.
  { apply (proj2 (tests_order_and_halt w c) before "Running yamllint..."
             (yamllint w c)
             [("Running flake8...", flake8 w c);
              ("Running pylint...", pylint w c);
              ("Running unit tests...",
               unittest w c false "nautobot_plugin_nornir" false true)]
             [] tr1 tr2); reflexivity. }
  subst w c. rewrite H. split; reflexivity.
Defined.

(** * Further properties *)

(** ** is_truthy, read backwards *)

Lemma tokens_disjoint (x : string) :
  In x true_tokens -> In x false_tokens -> False.
Proof.
  unfold true_tokens, false_tokens. cbn [In].
  intros Ht Hf.
  repeat (destruct Ht as [<-|Ht];
          [repeat (destruct Hf as [Hf|Hf]; [discriminate Hf|]); exact Hf|]).
  exact Ht.
Qed.

(** X1.  [is_truthy] gives [True] for a string only if its lower-cased
    form is a truthy token, [False] only if it is a falsy token, and
    raises exactly when it is neither. *)
Theorem is_truthy_string_iff (s : string) :
  (is_truthy (PStr s) = inr true <-> In (lower s) true_tokens) /\
  (is_truthy (PStr s) = inr false <-> In (lower s) false_tokens) /\
  ((exists e, is_truthy (PStr s) = inl e) <->
   ~ In (lower s) (true_tokens ++ false_tokens)%list).
Proof.
  unfold is_truthy, strtobool.
  destruct (str_in_tuple (lower s) true_tokens) eqn:Ht.
  - apply str_in_tuple_iff in Ht. cbn [py_bool Z.eqb negb].
    split; [tauto | split].
    + split; [discriminate |].
      intros Hf. destruct (tokens_disjoint _ Ht Hf).
    + split; [intros [e H]; discriminate H |].
      intros H. exfalso. apply H, in_or_app. now left.
  - assert (~ In (lower s) true_tokens) as Hnt
      by (rewrite <- str_in_tuple_iff, Ht; discriminate).
    destruct (str_in_tuple (lower s) false_tokens) eqn:Hf.
    + apply str_in_tuple_iff in Hf. cbn [py_bool Z.eqb negb].
      split; [split; [discriminate | tauto] | split; [tauto |]].
      split; [intros [e H]; discriminate H |].
      intros H. exfalso. apply H, in_or_app. now right.
    + assert (~ In (lower s) false_tokens) as Hnf
        by (rewrite <- str_in_tuple_iff, Hf; discriminate).
      split; [split; [discriminate | tauto] |].
      split; [split; [discriminate | tauto] |].
      split; [|eauto].
      intros _ Hin. apply in_app_or in Hin. tauto.
Qed.

(** ** docker_compose: errors, outcome, options *)

Section ComposerMore.

Variable world : World.

(** X2.  When the caller's options already hold an [env] key, the call
    of [context.run] is a [TypeError]: the status line is printed, no
    command is run. *)
Theorem docker_compose_env_clash (context : Context) (command : string)
    (kwargs : gmap string PyVal) (tr : Trace) (v : PyVal) :
  kwargs !! "env" = Some v ->
  docker_compose world context command kwargs tr
    = (inl (TypeError "env"), (tr ++ [announce command])%list).
Proof. intros Henv. rewrite docker_compose_eq, Henv. reflexivity. Qed.

(** X3.  Without such a clash, [docker_compose] ends as the one command
    it runs ends: the result of [context.run] is returned as it is, its
    exception raised as it is, and the log grows by the status line and
    that one run. *)
Theorem docker_compose_outcome (context : Context) (command : string)
    (kwargs : gmap string PyVal) (tr : Trace) :
  let cfg := nautobot_plugin_nornir context in
  let line := compose_line cfg (existing_paths world tr cfg) command in
  let kw := <["env" := PDict (build_env cfg)]> kwargs in
  kwargs !! "env" = None ->
  fst (docker_compose world context command kwargs tr)
    = shell world (tr ++ [announce command])%list line kw /\
  snd (docker_compose world context command kwargs tr)
    = (tr ++ [announce command; ERun line kw])%list.
Proof.
  intros cfg line kw Henv. rewrite docker_compose_eq, Henv.
  unfold context_run. cbn [fst snd]. fold cfg line kw.
  split; [reflexivity | now rewrite <- app_assoc].
Qed.

(** X4.  The caller's options reach [context.run] untouched: the run
    carries, for every key other than [env], exactly what the caller
    passed, and nothing where the caller passed nothing. *)
Theorem docker_compose_forwards_kwargs (context : Context) (command : string)
    (kwargs : gmap string PyVal) (tr : Trace) :
  kwargs !! "env" = None ->
  exists line kw,
    last (snd (docker_compose world context command kwargs tr))
      = Some (ERun line kw) /\
    forall key : string, key <> "env" -> kw !! key = kwargs !! key.
Proof.
  intros Henv. rewrite docker_compose_eq, Henv.
  unfold context_run. cbn [snd].
  eexists _, _. split.
  - apply last_snoc.
  - intros key Hkey. now apply lookup_insert_ne.
Qed.

Lemma filter_none {A} (f : A -> bool) (l : list A) :
  (forall x, In x l -> f x = false) -> List.filter f l = [].
Proof.
  induction l as [|x l IH]; intros H; [reflexivity |].
  cbn [List.filter]. rewrite (H x) by now left.
  apply IH. intros y Hy. apply H. now right.
Qed.

(** X5.  When none of the configured compose files is on disk (or none
    is configured), the command line has no [-f] clause at all: the base
    invocation is followed directly by the caller's command. *)
Theorem docker_compose_no_files (context : Context) (command : string)
    (kwargs : gmap string PyVal) (tr : Trace) :
  let cfg := nautobot_plugin_nornir context in
  (forall file, In file (compose_files cfg) ->
     os_path_isfile world tr (os_path_join (compose_dir cfg) file) = false) ->
  kwargs !! "env" = None ->
  snd (docker_compose world context command kwargs tr)
    = (tr ++ [announce command;
              ERun ("docker-compose --project-name " ++ project_name cfg
                      ++ " --project-directory " ++ dq ++ compose_dir cfg ++ dq
                      ++ " " ++ command)
                (<["env" := PDict (build_env cfg)]> kwargs)])%list.
Proof.
  intros cfg Hnone Henv. rewrite docker_compose_eq, Henv. fold cfg.
  unfold context_run. cbn [snd]. rewrite <- app_assoc.
  unfold compose_line, existing_paths.
  rewrite filter_none.
  - reflexivity.
  - intros path Hin. apply in_map_iff in Hin as (file & <- & Hfile).
    now apply Hnone.
Qed.

End ComposerMore.

(** ** What a call adds to the log *)

Lemma then_ret_tt {A} (c : M A) (tr : Trace) :
  snd ((c >> ret tt) tr) = snd (c tr) /\
  fst ((c >> ret tt) tr)
    = match fst (c tr) with inl e => inl e | inr _ => inr tt end.
Proof. unfold bind, ret. destruct (c tr) as [[e|a] tr']; split; reflexivity. Qed.

Lemma compose_line_prefix (cfg : Config) (paths : list string)
    (command : string) :
  String.prefix "docker-compose " (compose_line cfg paths command) = true.
Proof.
  apply prefix_iff. unfold compose_line.
  eexists. rewrite <- append_assoc. reflexivity.
Qed.

Section AddedEvents.

Variable world : World.
Variable P : Event -> Prop.
Hypothesis P_announce : forall command, P (announce command).
Hypothesis P_compose :
  forall command kwargs,
    String.prefix "docker-compose " command = true -> P (ERun command kwargs).

Lemma docker_compose_added (context : Context) (command : string)
    (kwargs : gmap string PyVal) (tr : Trace) :
  exists added,
    snd (docker_compose world context command kwargs tr) = (tr ++ added)%list /\
    Forall P added.
Proof.
  rewrite docker_compose_eq.
  destruct (kwargs !! "env").
  - exists [announce command]. split; [reflexivity | auto].
  - eexists [announce command; ERun _ _]. split.
    + unfold context_run. cbn [snd]. now rewrite <- app_assoc.
    + repeat constructor; auto using compose_line_prefix.
Qed.

Lemma run_command_container_added (context : Context) (command : string)
    (kwargs : gmap string PyVal) (tr : Trace) :
  is_truthy (local (nautobot_plugin_nornir context)) = inr false ->
  exists added,
    snd (run_command world context command kwargs tr) = (tr ++ added)%list /\
    Forall P added.
Proof.
  intros Hlocal. unfold run_command. rewrite Hlocal.
  destruct (docker_compose_added context status_query
              {["hide" := PStr "out"]} tr) as (added1 & Htr1 & HP1).
  unfold bind at 1. fold status_query.
  destruct (docker_compose world context status_query _ tr)
    as [[e|results] tr1]; cbn [snd] in Htr1; subst tr1.
  - now exists added1.
  - match goal with
    | |- context [docker_compose world context ?c ?k >> _] =>
        destruct (docker_compose_added context c k (tr ++ added1)%list)
          as (added2 & Htr2 & HP2);
        destruct (then_ret_tt (A := Result)
                    (docker_compose world context c k) (tr ++ added1)%list)
          as [Hsnd _]
    end.
    exists (added1 ++ added2)%list. split.
    + unfold bind in Hsnd |- *. unfold ret in Hsnd.
      destruct (docker_compose world context _ _ (tr ++ added1)%list)
        as [[e|r] tr2]; cbn [snd] in *; subst tr2; now rewrite app_assoc.
    + now apply Forall_app.
Qed.

End AddedEvents.

(** ** run_command: errors and what it never does *)

Section DispatchMore.

Variable world : World.

Lemma invoke_call_run_command (context : Context) (call : DispatchCall) :
  exists command,
    invoke_call world context call
      = (run_command world context command ∅ >> ret tt).
Proof. destruct call; eexists; reflexivity. Qed.

(** X6.  A [local] flag that is not a truth value stops every task that
    goes through [run_command] before anything happens: the exception of
    [is_truthy] is raised, nothing is printed and no command is run. *)
Theorem invoke_call_bad_local (context : Context) (call : DispatchCall)
    (tr : Trace) (e : Exn) :
  is_truthy (local (nautobot_plugin_nornir context)) = inl e ->
  invoke_call world context call tr = (inl e, tr).
Proof.
  intros Hlocal.
  destruct (invoke_call_run_command context call) as [command ->].
  unfold bind, run_command. rewrite Hlocal. reflexivity.
Qed.

(** X7.  With local mode false the first thing [run_command] does is the
    running-services query, run with its output hidden ([hide="out"]) and
    the build environment; when that query fails, its exception is raised
    and the caller's command is never composed nor run. *)
Theorem run_command_query_failure (context : Context) (command : string)
    (kwargs : gmap string PyVal) (tr : Trace) (e : Exn) :
  let cfg := nautobot_plugin_nornir context in
  let line := compose_line cfg (existing_paths world tr cfg) status_query in
  is_truthy (local cfg) = inr false ->
  shell world (tr ++ [announce status_query])%list line (query_kwargs cfg)
    = inl e ->
  run_command world context command kwargs tr
    = (inl e, (tr ++ [announce status_query; ERun line (query_kwargs cfg)])%list).
Proof.
  intros cfg line Hlocal Hfail. unfold run_command. fold cfg.
  rewrite Hlocal. unfold bind at 1. rewrite docker_compose_eq. fold cfg.
  rewrite lookup_singleton_ne by discriminate.
  unfold context_run. fold status_query line (query_kwargs cfg).
  rewrite Hfail. now rewrite <- app_assoc.
Qed.

(** X8.  [run_command] never hands a result back: whenever it returns,
    in local mode or not, the value is [None]. *)
Theorem run_command_returns_none (context : Context) (command : string)
    (kwargs : gmap string PyVal) (tr : Trace) (v : option Result) :
  fst (run_command world context command kwargs tr) = inr v -> v = None.
Proof.
  unfold run_command.
  destruct (is_truthy (local (nautobot_plugin_nornir context))) as [e|[|]].
  - discriminate.
  - unfold bind, ret. destruct (context_run world command kwargs tr) as [[e|r] tr'];
      cbn [fst]; congruence.
  - unfold bind, ret.
    destruct (docker_compose world context _ _ tr) as [[e|r] tr1];
      [discriminate |].
    destruct (docker_compose world context _ _ tr1) as [[e|r2] tr2];
      cbn [fst]; congruence.
Qed.

(** X9.  With local mode false no task that goes through [run_command]
    runs anything on the host but [docker-compose]: every command it
    hands to [context.run] starts with [docker-compose ]. *)
Theorem invoke_call_only_docker_compose (context : Context)
    (call : DispatchCall) (tr : Trace) :
  is_truthy (local (nautobot_plugin_nornir context)) = inr false ->
  exists added,
    snd (invoke_call world context call tr) = (tr ++ added)%list /\
    Forall runs_docker_compose added.
Proof.
  intros Hlocal.
  destruct (invoke_call_run_command context call) as [command ->].
  destruct (then_ret_tt (run_command world context command ∅) tr) as [-> _].
  apply run_command_container_added; [ | | exact Hlocal].
  - intros c. exact I.
  - intros c k Hc. exact Hc.
Qed.

(** X10.  With local mode true each of those tasks does one thing only:
    it runs its command on the host, once, with no options; nothing is
    printed, and the task fails exactly when that command fails. *)
Theorem invoke_call_local (context : Context) (call : DispatchCall)
    (tr : Trace) :
  is_truthy (local (nautobot_plugin_nornir context)) = inr true ->
  exists command,
    snd (invoke_call world context call tr) = (tr ++ [ERun command ∅])%list /\
    fst (invoke_call world context call tr)
      = match shell world tr command ∅ with
        | inl e => inl e
        | inr _ => inr tt
        end.
Proof.
  intros Hlocal.
  destruct (invoke_call_run_command context call) as [command ->].
  exists command.
  destruct (then_ret_tt (run_command world context command ∅) tr) as [-> ->].
  rewrite (run_command_local world _ _ _ _ Hlocal). cbn [fst snd].
  split; [reflexivity |].
  destruct (shell world tr command ∅); reflexivity.
Qed.

End DispatchMore.

(** ** Build and lifecycle tasks *)

Lemma last_two {A} (l : list A) (a b : A) : last (l ++ [a; b])%list = Some b.
Proof.
  replace (l ++ [a; b])%list with ((l ++ [a]) ++ [b])%list
    by now rewrite <- app_assoc.
  apply last_snoc.
Qed.

Section LifecycleMore.

Variable world : World.

(** X11.  The tasks that drive [docker-compose] directly (build, debug,
    start, stop, destroy) never look at the [local] flag: whatever its
    value, even one that is no truth value, they do the same. *)
Theorem lifecycle_ignores_local (context : Context) (call : LifecycleCall)
    (loc : PyVal) (tr : Trace) :
  invoke_lifecycle world (with_local loc context) call tr
    = invoke_lifecycle world context call tr.
Proof. destruct call; reflexivity. Qed.

Lemma announced_compose (context : Context) (line command : string)
    (tr : Trace) :
  let cfg := nautobot_plugin_nornir context in
  let tr0 := (tr ++ [EPrint line])%list in
  let cmdline := compose_line cfg (existing_paths world tr0 cfg) command in
  snd ((print line >> docker_compose world context command ∅ >> ret tt) tr)
    = (tr0 ++ [announce command; ERun cmdline (env_only cfg)])%list /\
  fst ((print line >> docker_compose world context command ∅ >> ret tt) tr)
    = match shell world (tr0 ++ [announce command])%list cmdline (env_only cfg)
      with
      | inl e => inl e
      | inr _ => inr tt
      end.
Proof.
  intros cfg tr0 cmdline.
  assert ((print line >> docker_compose world context command ∅ >> ret tt) tr
          = (docker_compose world context command ∅ >> ret tt) tr0) as ->
    by reflexivity.
  destruct (then_ret_tt (docker_compose world context command ∅) tr0)
    as [-> ->].
  rewrite docker_compose_eq. fold cfg cmdline.
  rewrite lookup_empty. unfold context_run. cbn [fst snd].
  fold (env_only cfg). split; [now rewrite <- app_assoc | reflexivity].
Qed.

(** X12.  Each of those tasks prints its own line, then runs exactly one
    [docker-compose] command whose only option is the build environment
    (no [pty], no [hide]); it fails exactly when that command fails. *)
Theorem lifecycle_one_command (context : Context) (call : LifecycleCall)
    (tr : Trace) :
  let cfg := nautobot_plugin_nornir context in
  exists line command,
    let tr0 := (tr ++ [EPrint line])%list in
    let cmdline := compose_line cfg (existing_paths world tr0 cfg) command in
    snd (invoke_lifecycle world context call tr)
      = (tr0 ++ [announce command; ERun cmdline (env_only cfg)])%list /\
    fst (invoke_lifecycle world context call tr)
      = match shell world (tr0 ++ [announce command])%list cmdline
                (env_only cfg) with
        | inl e => inl e
        | inr _ => inr tt
        end.
Proof.
  intros cfg. destruct call; eexists _, _; apply announced_compose.
Qed.

(** X13.  [build] asks for [build], followed by [--no-cache] when the
    cache is turned off and then by [--force-rm] when that is asked for,
    in this order. *)
Theorem build_command (context : Context) (force_rm cache : bool)
    (tr : Trace) :
  let cfg := nautobot_plugin_nornir context in
  let tr0 :=
    (tr ++ [EPrint ("Building Nautobot with Python " ++ python_ver cfg
                      ++ "...")])%list in
  let command :=
    "build" ++ (if cache then EmptyString else " --no-cache")
      ++ (if force_rm then " --force-rm" else EmptyString) in
  last (snd (build world context force_rm cache tr))
    = Some (ERun (compose_line cfg (existing_paths world tr0 cfg) command)
              (env_only cfg)).
Proof.
  intros cfg tr0 command.
  unfold build. fold cfg.
  match goal with
  | |- context [docker_compose world context ?c ∅] =>
      destruct (announced_compose context
                  ("Building Nautobot with Python " ++ python_ver cfg ++ "...")
                  c tr) as [Hlog _];
      replace c with command in * by (destruct cache, force_rm; reflexivity)
  end.
  cbv zeta in Hlog. fold cfg tr0 in Hlog. rewrite Hlog.
  apply last_two.
Qed.

End LifecycleMore.

(** ** The aggregate task: what its log holds *)

Lemma commands_app (tr1 tr2 : Trace) :
  Demo.commands (tr1 ++ tr2)%list
    = (Demo.commands tr1 ++ Demo.commands tr2)%list.
Proof. unfold Demo.commands. apply flat_map_app. Qed.

Section AnyMode.

Variable world : World.
Variable P : Event -> Prop.
Hypothesis P_announce : forall command, P (announce command).
Hypothesis P_run : forall command kwargs, P (ERun command kwargs).

Lemma run_command_added (context : Context) (command : string)
    (kwargs : gmap string PyVal) (tr : Trace) :
  exists added,
    snd (run_command world context command kwargs tr) = (tr ++ added)%list /\
    Forall P added.
Proof.
  destruct (is_truthy (local (nautobot_plugin_nornir context)))
    as [e|[|]] eqn:Hlocal.
  - exists []. unfold run_command. rewrite Hlocal.
    split; [symmetry; apply app_nil_r | constructor].
  - exists [ERun command kwargs].
    rewrite (run_command_local world _ _ _ _ Hlocal).
    split; [reflexivity | auto].
  - apply run_command_container_added; auto.
Qed.

Lemma invoke_call_added (context : Context) (call : DispatchCall)
    (tr : Trace) :
  exists added,
    snd (invoke_call world context call tr) = (tr ++ added)%list /\
    Forall P added.
Proof.
  destruct (invoke_call_run_command world context call) as [command ->].
  destruct (then_ret_tt (run_command world context command ∅) tr) as [-> _].
  apply run_command_added.
Qed.

Lemma run_steps_added (steps : list (string * M unit)) :
  Forall (fun step =>
            P (EPrint (fst step)) /\
            forall tr, exists added,
              snd (snd step tr) = (tr ++ added)%list /\ Forall P added)
    steps ->
  forall tr, exists added,
    snd (run_steps steps tr) = (tr ++ added)%list /\ Forall P added.
Proof.
  induction 1 as [|[line task] rest [Hline Htask] _ IH]; intros tr.
  - exists []. split; [symmetry; apply app_nil_r | constructor].
  - cbn [fst snd] in Hline, Htask. cbn [run_steps].
    unfold bind at 1. unfold print.
    destruct (Htask (tr ++ [EPrint line])%list) as (added1 & Hlog1 & HP1).
    unfold bind at 1.
    destruct (task (tr ++ [EPrint line])%list) as [[e|[]] tr1];
      cbn [snd] in Hlog1; subst tr1.
    + exists (EPrint line :: added1). split.
      * now rewrite <- app_assoc.
      * now constructor.
    + destruct (IH ((tr ++ [EPrint line]) ++ added1)%list)
        as (added2 & Hlog2 & HP2).
      exists (EPrint line :: added1 ++ added2)%list. split.
      * rewrite Hlog2. now rewrite <- !app_assoc.
      * constructor; [exact Hline | now apply Forall_app].
Qed.

End AnyMode.

Section AggregateMore.

Variable world : World.

Lemma test_steps_added (context : Context) (tr : Trace) :
  exists added,
    snd (run_steps (test_steps world context) tr) = (tr ++ added)%list /\
    Forall (fun ev => ev <> all_passed) added.
Proof.
  apply run_steps_added with (P := fun ev => ev <> all_passed).
  pose proof (invoke_call_added world (fun ev => ev <> all_passed)
                ltac:(discriminate) ltac:(discriminate) context) as Hcall.
  unfold test_steps.
  repeat (constructor; [split; [discriminate |] |]); cbn [snd].
  - exact (Hcall (CallBlack false)).
  - exact (Hcall CallBandit).
  - exact (Hcall CallPydocstyle).
  - exact (Hcall CallYamllint).
  - exact (Hcall CallFlake8).
  - exact (Hcall CallPylint).
  - exact (Hcall (CallUnittest false "nautobot_plugin_nornir" false true)).
  - constructor.
Qed.

(** X14.  [All tests have passed!] is the last thing [tests] prints when
    it returns, and is never printed when it raises: a failed run cannot
    end in the success message. *)
Theorem tests_success_message (context : Context) (tr : Trace) :
  (forall tr', tests world context tr = (inr tt, tr') ->
     exists added, tr' = (tr ++ added ++ [all_passed])%list) /\
  (forall e tr', tests world context tr = (inl e, tr') ->
     exists added, tr' = (tr ++ added)%list /\ ~ In all_passed added).
Proof.
  rewrite tests_eq.
  destruct (test_steps_added context tr) as (added & Hlog & Hnot).
  unfold bind, print.
  destruct (run_steps (test_steps world context) tr) as [[e|[]] tr1];
    cbn [snd] in Hlog; subst tr1.
  - split; [discriminate |].
    intros e' tr' [= <- <-]. exists added. split; [reflexivity |].
    rewrite List.Forall_forall in Hnot. intros Hin. now apply (Hnot _ Hin).
  - split; [|discriminate].
    intros tr' [= <-]. exists added. now rewrite <- app_assoc.
Qed.

Section LocalMode.

Variable context : Context.
Hypothesis local_mode :
  is_truthy (local (nautobot_plugin_nornir context)) = inr true.

Lemma host_step_eq (command : string) (tr : Trace) :
  (run_command world context command ∅ >> ret tt) tr
    = (match shell world tr command ∅ with
       | inl e => inl e
       | inr _ => inr tt
       end, (tr ++ [ERun command ∅])%list).
Proof.
  unfold bind. rewrite (run_command_local world _ _ _ _ local_mode).
  destruct (shell world tr command ∅); reflexivity.
Qed.

Lemma run_host_steps_cons (line command : string)
    (rest : list (string * M unit)) (tr : Trace) :
  run_steps (host_step world context (line, command) :: rest) tr
    = match shell world (tr ++ [EPrint line])%list command ∅ with
      | inl e => (inl e, ((tr ++ [EPrint line]) ++ [ERun command ∅])%list)
      | inr _ =>
          run_steps rest ((tr ++ [EPrint line]) ++ [ERun command ∅])%list
      end.
Proof.
  cbn [run_steps host_step fst snd].
  unfold bind at 1. unfold print. unfold bind at 1.
  rewrite host_step_eq.
  destruct (shell world _ command ∅); reflexivity.
Qed.

Lemma run_host_steps (steps : list (string * string)) (tr : Trace) :
  exists n,
    n <= length steps /\
    Demo.commands (snd (run_steps (map (host_step world context) steps) tr))
      = (Demo.commands tr ++ firstn n (map snd steps))%list /\
    (fst (run_steps (map (host_step world context) steps) tr) = inr tt ->
     n = length steps).
Proof.
  revert tr; induction steps as [|[line command] rest IH]; intros tr.
  - exists 0. cbn. rewrite app_nil_r. auto.
  - cbn [map]. rewrite run_host_steps_cons.
    destruct (shell world _ command ∅) as [e|r].
    + exists 1. cbn [length firstn map snd fst]. split; [lia |].
      rewrite !commands_app. cbn. rewrite app_nil_r.
      split; [reflexivity | discriminate].
    + destruct (IH ((tr ++ [EPrint line]) ++ [ERun command ∅])%list)
        as (n & Hn & Hcommands & Hall).
      exists (S n). cbn [length firstn map snd]. split; [lia |].
      rewrite Hcommands, !commands_app. cbn. rewrite app_nil_r.
      split; [now rewrite <- app_assoc | intros H; f_equal; auto].
Qed.

Lemma host_sequence_eq (script : list (string * string)) (tr : Trace) :
  run_steps (map (host_step world context) script) tr
    = host_sequence world script tr.
Proof.
  revert tr; induction script as [|[line command] rest IH]; intros tr.
  - reflexivity.
  - cbn [map]. rewrite run_host_steps_cons.
    cbn [host_sequence]. unfold bind at 1. unfold print.
    unfold bind at 1. unfold context_run at 1.
    destruct (shell world _ command ∅); [reflexivity | apply IH].
Qed.

Lemma host_sequence_halts (before after : list (string * string))
    (line command : string) (tr tr1 : Trace) (e : Exn) :
  host_sequence world before tr = (inr tt, tr1) ->
  shell world (tr1 ++ [EPrint line])%list command ∅ = inl e ->
  host_sequence world (before ++ (line, command) :: after)%list tr
    = (inl e, (tr1 ++ [EPrint line; ERun command ∅])%list).
Proof.
  revert tr; induction before as [|[line0 command0] rest IH];
    intros tr Hbefore Hfail.
  - injection Hbefore as <-. cbn [app host_sequence].
    unfold bind at 1. unfold print. unfold bind at 1.
    unfold context_run at 1. rewrite Hfail. now rewrite <- app_assoc.
  - cbn [app host_sequence] in Hbefore |- *.
    unfold bind at 1 in Hbefore. unfold print in Hbefore.
    unfold bind at 1 in Hbefore. unfold context_run at 1 in Hbefore.
    unfold bind at 1. unfold print. unfold bind at 1.
    unfold context_run at 1.
    destruct (shell world _ command0 ∅); [discriminate Hbefore |].
    now apply IH.
Qed.

(** X15.  In local mode [tests] is exactly this: announce and run on the
    host, with no options, the seven commands of [test_script] in order
    (black in check mode first, the unit tests with [--buffer] last),
    then print the success line.  The first command that fails ends it:
    its exception is the outcome, its run is the last event of the log,
    and no later command is announced or run.  So the commands run are a
    prefix of [test_commands], all seven when [tests] returns. *)
Theorem tests_local_commands (tr : Trace) :
  tests world context tr
    = (host_sequence world test_script >> print "All tests have passed!") tr /\
  (forall before line command after tr1 e,
      test_script = (before ++ (line, command) :: after)%list ->
      host_sequence world before tr = (inr tt, tr1) ->
      shell world (tr1 ++ [EPrint line])%list command ∅ = inl e ->
      tests world context tr
        = (inl e, (tr1 ++ [EPrint line; ERun command ∅])%list)) /\
  (exists n,
      n <= 7 /\
      Demo.commands (snd (tests world context tr))
        = (Demo.commands tr ++ firstn n test_commands)%list /\
      (fst (tests world context tr) = inr tt -> n = 7)).
Proof.
  assert (forall tr0,
             run_steps (test_steps world context) tr0
               = host_sequence world test_script tr0) as Hseq
    by (intros tr0; apply (host_sequence_eq test_script)).
  split; [|split].
  - rewrite tests_eq. unfold bind. now rewrite Hseq.
  - intros before line command after tr1 e Hsplit Hbefore Hfail.
    rewrite tests_eq. apply bind_raises.
    rewrite Hseq, Hsplit. now apply host_sequence_halts.
  - destruct (run_host_steps test_script tr) as (n & Hn & Hcommands & Hall).
    exists n. rewrite tests_eq.
    change (run_steps (map (host_step world context) test_script) tr)
      with (run_steps (test_steps world context) tr) in Hcommands, Hall.
    unfold bind, print.
    destruct (run_steps (test_steps world context) tr) as [[e|[]] tr1];
      cbn [fst snd] in *.
    + split; [exact Hn | split; [exact Hcommands | discriminate]].
    + split; [exact Hn | split; [| auto]].
      rewrite commands_app, Hcommands. cbn. now rewrite app_nil_r.
Qed.

End LocalMode.

End AggregateMore.

(** ** Compose files given by absolute path *)

(** X16.  A compose file configured with an absolute path is looked for
    at that path, whatever the project directory is, and its [-f] clause
    names that path. *)
Theorem docker_compose_absolute_file (world : World) (context : Context)
    (command : string) (kwargs : gmap string PyVal) (tr : Trace)
    (file : string) :
  let cfg := nautobot_plugin_nornir context in
  compose_files cfg = [file] ->
  String.prefix "/" file = true ->
  os_path_isfile world tr file = true ->
  kwargs !! "env" = None ->
  snd (docker_compose world context command kwargs tr)
    = (tr ++ [announce command;
              ERun ("docker-compose --project-name " ++ project_name cfg
                      ++ " --project-directory " ++ dq ++ compose_dir cfg ++ dq
                      ++ f_clause file ++ " " ++ command)
                (<["env" := PDict (build_env cfg)]> kwargs)])%list.
Proof.
  intros cfg Hfiles Habs Hfile Henv.
  rewrite docker_compose_eq, Henv. fold cfg.
  unfold context_run. cbn [snd]. rewrite <- app_assoc.
  unfold compose_line, existing_paths. rewrite Hfiles.
  cbn [map List.filter].
  assert (os_path_join (compose_dir cfg) file = file) as ->
    by (unfold os_path_join, startswith; now rewrite Habs).
  rewrite Hfile. cbn [map concat_all fold_right].
  now rewrite append_nil_r.
Qed.

(** ** The further properties at work *)

Lemma docker_compose_env_clash_witness :
  docker_compose (Demo.world EmptyString "none") (Demo.ctx (PBool false))
    "up" {["env" := PDict ∅]} []
  = (inl (TypeError "env"), [announce "up"]).
Proof.
  exact (docker_compose_env_clash (Demo.world EmptyString "none")
           (Demo.ctx (PBool false)) "up" {["env" := PDict ∅]} [] (PDict ∅)
           eq_refl).
Defined.

Lemma docker_compose_outcome_witness :
  fst (docker_compose (Demo.world EmptyString "up") (Demo.ctx (PBool false))
         "up --detach" ∅ [])
  = Demo.failed 1.
Proof.
  rewrite (proj1 (docker_compose_outcome (Demo.world EmptyString "up")
                    (Demo.ctx (PBool false)) "up --detach" ∅ []
                    (lookup_empty _))).
  reflexivity.
Defined.

Lemma docker_compose_forwards_kwargs_witness :
  exists line kw,
    last (snd (docker_compose (Demo.world EmptyString "none")
                 (Demo.ctx (PBool false)) "up" {["pty" := PBool true]} []))
      = Some (ERun line kw) /\
    kw !! "pty" = Some (PBool true) /\ kw !! "hide" = None.
Proof.
  assert (({["pty" := PBool true]} : gmap string PyVal) !! "env" = None)
    as Henv by reflexivity.
  destruct (docker_compose_forwards_kwargs (Demo.world EmptyString "none")
              (Demo.ctx (PBool false)) "up" {["pty" := PBool true]} [] Henv)
    as (line & kw & Hlast & Hkeys).
  exists line, kw. split; [exact Hlast |].
  rewrite !Hkeys by discriminate. split; reflexivity.
Defined.

Lemma docker_compose_no_files_witness :
  Demo.commands
    (snd (docker_compose (Demo.world EmptyString "none")
            (mkContext
               (mkConfig "v1.0.0a1" "nautobot_plugin_nornir" "3.6" (PBool false)
                  "/src/development" ["docker-compose.yml"]))
            "down" ∅ []))
  = ["docker-compose --project-name nautobot_plugin_nornir --project-directory "
       ++ dq ++ "/src/development" ++ dq ++ " down"].
Proof.
  rewrite docker_compose_no_files.
  - reflexivity.
  - intros file [<-|[]]. reflexivity.
  - apply lookup_empty.
Defined.

Lemma docker_compose_absolute_file_witness :
  Demo.commands
    (snd (docker_compose (Demo.world EmptyString "none")
            (mkContext
               (mkConfig "v1.0.0a1" "nautobot_plugin_nornir" "3.6" (PBool false)
                  "/elsewhere"
                  ["/src/development/../docker-compose.override.yml"]))
            "down" ∅ []))
  = ["docker-compose --project-name nautobot_plugin_nornir --project-directory "
       ++ dq ++ "/elsewhere" ++ dq ++ " -f " ++ dq
       ++ "/src/development/../docker-compose.override.yml" ++ dq ++ " down"].
Proof.
  rewrite (docker_compose_absolute_file (Demo.world EmptyString "none")
             (mkContext
                (mkConfig "v1.0.0a1" "nautobot_plugin_nornir" "3.6"
                   (PBool false) "/elsewhere"
                   ["/src/development/../docker-compose.override.yml"]))
             "down" ∅ [] "/src/development/../docker-compose.override.yml"
             eq_refl eq_refl eq_refl (lookup_empty _)).
  reflexivity.
Defined.

Lemma invoke_call_bad_local_witness :
  invoke_call (Demo.world "nautobot" "none") (Demo.ctx (PStr "maybe"))
    (CallCreateUser "admin") []
  = (inl (ValueError "invalid truth value %r" "maybe"), []) /\
  invoke_call (Demo.world "nautobot" "none") (Demo.ctx PNone) CallCli []
  = (inl (AttributeError "lower"), []).
Proof.
  split.
  - exact (invoke_call_bad_local (Demo.world "nautobot" "none")
             (Demo.ctx (PStr "maybe")) (CallCreateUser "admin") [] _ eq_refl).
  - exact (invoke_call_bad_local (Demo.world "nautobot" "none")
             (Demo.ctx PNone) CallCli [] _ eq_refl).
Defined.

Lemma run_command_query_failure_witness :
  Demo.commands
    (snd (run_command (mkWorld (fun _ _ => false) (fun _ _ _ => Demo.failed 125))
            (Demo.ctx (PBool false)) "bash" ∅ []))
  = ["docker-compose --project-name nautobot_plugin_nornir --project-directory "
       ++ dq ++ "/src/development" ++ dq
       ++ " ps --services --filter status=running"] /\
  fst (run_command (mkWorld (fun _ _ => false) (fun _ _ _ => Demo.failed 125))
         (Demo.ctx (PBool false)) "bash" ∅ [])
  = inl (UnexpectedExit (mkResult EmptyString EmptyString 125)).
Proof.
  rewrite (run_command_query_failure
             (mkWorld (fun _ _ => false) (fun _ _ _ => Demo.failed 125))
             (Demo.ctx (PBool false)) "bash" ∅ []
             (UnexpectedExit (mkResult EmptyString EmptyString 125))
             eq_refl eq_refl).
  split; reflexivity.
Defined.

Lemma run_command_returns_none_witness :
  exists v,
    fst (run_command (Demo.world "nautobot" "none") (Demo.ctx (PBool false))
           "bash" ∅ []) = inr v /\
    v = None.
Proof.
  eexists. split; [reflexivity |].
  apply (run_command_returns_none (Demo.world "nautobot" "none")
           (Demo.ctx (PBool false)) "bash" ∅ []).
  reflexivity.
Defined.

Lemma invoke_call_only_docker_compose_witness :
  exists added,
    snd (invoke_call (Demo.world "db" "none") (Demo.ctx (PBool false))
           (CallMakemigrations "initial") [])
      = added /\
    Forall runs_docker_compose added.
Proof.
  destruct (invoke_call_only_docker_compose (Demo.world "db" "none")
              (Demo.ctx (PBool false)) (CallMakemigrations "initial") []
              eq_refl) as (added & Hlog & Hall).
  exists added. split; [exact Hlog | exact Hall].
Defined.

Lemma invoke_call_local_witness :
  exists command,
    snd (invoke_call (Demo.world "db" "none") (Demo.ctx (PStr "True"))
           (CallMakemigrations "initial") [])
      = [ERun command ∅].
Proof.
  destruct (invoke_call_local (Demo.world "db" "none") (Demo.ctx (PStr "True"))
              (CallMakemigrations "initial") [] eq_refl)
    as (command & Hlog & _).
  exists command. exact Hlog.
Defined.

Lemma tests_local_commands_witness :
  tests (Demo.world "db" "pydocstyle") (Demo.ctx (PStr "on")) []
  = (inl (UnexpectedExit (mkResult EmptyString EmptyString 1)),
     [EPrint "Running black..."; ERun "black --check --diff ." ∅;
      EPrint "Running bandit...";
      ERun "bandit --recursive . --configfile .bandit.yml" ∅;
      EPrint "Running pydocstyle...";
      ERun "pydocstyle --config=.pydocstyle.ini ." ∅]).
Proof.
  destruct (tests_local_commands (Demo.world "db" "pydocstyle")
              (Demo.ctx (PStr "on")) eq_refl [])
    as (_ & Hhalt & _).
  exact (Hhalt
           [("Running black...", "black --check --diff .");
            ("Running bandit...",
             "bandit --recursive . --configfile .bandit.yml")]
           "Running pydocstyle..." "pydocstyle --config=.pydocstyle.ini ."
           (skipn 3 test_script)
           [EPrint "Running black..."; ERun "black --check --diff ." ∅;
            EPrint "Running bandit...";
            ERun "bandit --recursive . --configfile .bandit.yml" ∅]
           (UnexpectedExit (mkResult EmptyString EmptyString 1))
           eq_refl eq_refl eq_refl).
Defined.

(** ** One command, whatever the mode *)

Section SameCommand.

Variable world : World.

Lemma invoke_call_command (call : DispatchCall) :
  exists command,
    forall context,
      invoke_call world context call
        = (run_command world context command ∅ >> ret tt).
Proof. destruct call; eexists; intros context; reflexivity. Qed.

(** X17.  A task that goes through [run_command] stands for one command
    string, the same in both modes: with [local] true it is run on the
    host as it is; with [local] false, once the running-services query
    has answered, the last command run is [docker-compose] with that very
    string in the exec form or in the fresh-container form, under a
    pseudo-terminal. *)
Theorem invoke_call_same_command (context : Context) (call : DispatchCall) :
  let cfg := nautobot_plugin_nornir context in
  exists command,
    (forall tr,
        snd (invoke_call world (with_local (PBool true) context) call tr)
          = (tr ++ [ERun command ∅])%list) /\
    (forall tr results tr1,
        docker_compose world context status_query {["hide" := PStr "out"]} tr
          = (inr results, tr1) ->
        exists final,
          (final = exec_form command \/ final = fresh_form command) /\
          last (snd (invoke_call world (with_local (PBool false) context)
                       call tr))
            = Some (ERun (compose_line cfg (existing_paths world tr1 cfg) final)
                      (<["env" := PDict (build_env cfg)]>
                         {["pty" := PBool true]}))).
Proof.
  intros cfg. destruct (invoke_call_command call) as [command Hcall].
  exists command. split.
  - intros tr. rewrite Hcall.
    destruct (then_ret_tt
                (run_command world (with_local (PBool true) context) command ∅)
                tr) as [-> _].
    now rewrite (run_command_local world (with_local (PBool true) context)
                   command ∅ tr eq_refl).
  - intros tr results tr1 Hquery. rewrite Hcall.
    destruct (then_ret_tt
                (run_command world (with_local (PBool false) context) command ∅)
                tr) as [-> _].
    rewrite (run_command_container world (with_local (PBool false) context)
               command ∅ tr results tr1 eq_refl Hquery).
    exists (if str_contains "nautobot" (stdout results)
            then exec_form command else fresh_form command).
    split; [destruct (str_contains _ _); auto |].
    unfold bind, ret. rewrite docker_compose_eq.
    rewrite lookup_singleton_ne by discriminate.
    unfold context_run.
    destruct (shell world _ _ _); cbn [snd]; apply last_snoc.
Qed.

(** X18.  [makemigrations] with an empty name asks for the migration
    without a [--name] flag; with a name it appends [--name <name>].  In
    local mode that is the one command it runs. *)
Theorem makemigrations_name (context : Context) (name : string) (tr : Trace) :
  is_truthy (local (nautobot_plugin_nornir context)) = inr true ->
  snd (makemigrations world context name tr)
    = (tr ++ [ERun
                (match name with
                 | EmptyString =>
                     "nautobot-server makemigrations nautobot_plugin_nornir"
                 | String _ _ =>
                     "nautobot-server makemigrations nautobot_plugin_nornir"
                       ++ " --name " ++ name
                 end) ∅])%list.
Proof.
  intros Hlocal. unfold makemigrations.
  match goal with
  | |- context [run_command world context ?c ∅] =>
      destruct (then_ret_tt (run_command world context c ∅) tr) as [-> _];
      rewrite (run_command_local world _ c _ _ Hlocal)
  end.
  destruct name; reflexivity.
Qed.

End SameCommand.

Lemma makemigrations_name_witness :
  snd (makemigrations (Demo.world "db" "none") (Demo.ctx (PBool true))
         EmptyString [])
  = [ERun "nautobot-server makemigrations nautobot_plugin_nornir" ∅].
Proof.
  exact (makemigrations_name (Demo.world "db" "none") (Demo.ctx (PBool true))
           EmptyString [] eq_refl).
Defined.
